(** * create_charts.py: the benchmark chart script, embedded and verified

    The script is a straight line of calls into pandas, seaborn and
    matplotlib.  The embedding has three layers:

    - the two hardcoded tables, as association lists in the order of the
      Python dict literals;
    - the part of the libraries' state the script touches (seaborn theme,
      pyplot's registry of open figures, standard output, the files of the
      working directory), as a record [World], with every library call a
      function on it that either returns or raises;
    - the script itself, written call by call in a state-and-exception monad. *)

From Stdlib Require Import ZArith QArith_base Sorted.
From stdpp Require Import gmap strings list.

Local Open Scope string_scope.
Local Open Scope Z_scope.

(** ** Benchmark data (lines 10-19) *)

(** A Python dict literal of columns: keys in source order. *)
Abbreviation dict := (list (string * list Z)).

Definition random_data : dict :=
  [ ("N", [10; 100; 1000; 10000]);
    ("Time/Op (ns)", [4372; 115627; 1851251; 29025479]) ].

Definition grid_data : dict :=
  [ ("Segments", [20; 100; 200; 400]);
    ("Intersections", [100; 2500; 10000; 40000]);
    ("Time/Op (ns)", [55818; 1604035; 7506986; 31361110]) ].

(** [d[k]] on a dict (and [df[k]] on the frame built from it). *)
Fixpoint getitem (d : dict) (k : string) : option (list Z) :=
  match d with
  | [] => None
  | (k', v) :: d' => if String.eqb k k' then Some v else getitem d' k
  end.

Definition columns (d : dict) : list string := map fst d.
Definition values (d : dict) : list (list Z) := map snd d.

(** ** Library state *)

(** The exceptions the calls can raise. *)
Inductive exn : Type :=
  | ValueError (msg : string)
  | OSError
  | ImportError
  | RuntimeError.

(** [sns.set_theme(style=..., palette=..., font_scale=...)]. *)
Record Theme := mkTheme {
  style : string;
  palette : string;
  font_scale : Q
}.

(** Axis scales known to [Axes.set(xscale=..., yscale=...)]. *)
Inductive Scale : Type := Linear | Log.

Definition scale_of_string (s : string) : option Scale :=
  if String.eqb s "linear" then Some Linear
  else if String.eqb s "log" then Some Log
  else None.

(** One line artist: its data (x, estimate of y) and its marker. *)
Record Line2D := mkLine {
  xydata : list (Z * Q);
  marker : string;
  markersize : Z
}.

Record Grid := mkGrid {
  grid_visible : bool;
  grid_which : string;
  grid_ls : string
}.

Record Axes := mkAxes {
  lines : list Line2D;
  xscale : Scale;
  yscale : Scale;
  title : string;
  xlabel : string;
  ylabel : string;
  grid : option Grid
}.

(** What [Figure.gca()] creates when the figure has no axes yet. *)
Definition new_axes : Axes :=
  {| lines := []; xscale := Linear; yscale := Linear;
     title := ""; xlabel := ""; ylabel := ""; grid := None |}.

(** A figure: its size in inches ([None]: the rcParams default) and its
    axes, if any were created. *)
Record Figure := mkFigure {
  figsize : option (Z * Z);
  axes : option Axes
}.

Definition new_figure (size : option (Z * Z)) : Figure :=
  {| figsize := size; axes := None |}.

Definition gca (f : Figure) : Axes := default new_axes (axes f).

Definition set_axes (a : Axes) (f : Figure) : Figure :=
  {| figsize := figsize f; axes := Some a |}.

(** What [savefig] leaves on disk: the figure as it was when saved, and the
    rendering options.  The PNG encoding itself is not modelled. *)
Record Image := mkImage {
  canvas : Figure;
  dpi : Z;
  bbox_inches : string
}.

(** The state the script acts on.  [figs] is pyplot's registry of open
    figures by number, most recently activated first: its head is the
    current figure.  [disk] maps file names in the working directory to
    their content. *)
Record World := mkWorld {
  rc : option Theme;
  figs : list (nat * Figure);
  stdout : list string;
  disk : gmap string Image
}.

Definition set_rc (t : Theme) (w : World) : World :=
  {| rc := Some t; figs := figs w; stdout := stdout w; disk := disk w |}.
Definition set_figs (fs : list (nat * Figure)) (w : World) : World :=
  {| rc := rc w; figs := fs; stdout := stdout w; disk := disk w |}.
Definition set_stdout (out : list string) (w : World) : World :=
  {| rc := rc w; figs := figs w; stdout := out; disk := disk w |}.
Definition set_disk (d : gmap string Image) (w : World) : World :=
  {| rc := rc w; figs := figs w; stdout := stdout w; disk := d |}.

(** A new interpreter process started in a directory holding [d]: no theme,
    no open figure, nothing printed. *)
Definition fresh (d : gmap string Image) : World :=
  {| rc := None; figs := []; stdout := []; disk := d |}.

(** pyplot numbers a new figure one above the highest open number. *)
Definition next_num (fs : list (nat * Figure)) : nat :=
  S (foldr Nat.max 0%nat (map fst fs)).

(** [plt.gcf()]: the current figure; one is created when none is open. *)
Definition gcf (w : World) : World :=
  match figs w with
  | [] => set_figs [(1%nat, new_figure None)] w
  | _ :: _ => w
  end.

(** Apply [f] to the current axes of the current figure ([plt.gca()]). *)
Definition on_gca (f : Axes -> Axes) (w : World) : World :=
  match figs (gcf w) with
  | (n, fig) :: rest => set_figs ((n, set_axes (f (gca fig)) fig) :: rest) (gcf w)
  | [] => gcf w
  end.

(** Apply [f] to the axes of figure [n], current or not. *)
Definition on_axes (n : nat) (f : Axes -> Axes) (w : World) : World :=
  set_figs
    (map (fun nf : nat * Figure =>
            if Nat.eqb (fst nf) n then (fst nf, set_axes (f (gca (snd nf))) (snd nf))
            else nf)
         (figs w))
    w.

(** ** What seaborn's lineplot draws *)

(** [sort_values([x, y])]: rows ordered by x, then y. *)
Definition row_leb (a b : Z * Z) : bool :=
  (fst a <? fst b) || ((fst a =? fst b) && (snd a <=? snd b)).

Fixpoint insert_row (a : Z * Z) (l : list (Z * Z)) : list (Z * Z) :=
  match l with
  | [] => [a]
  | b :: l' => if row_leb a b then a :: b :: l' else b :: insert_row a l'
  end.

Definition sort_values (l : list (Z * Z)) : list (Z * Z) :=
  foldr insert_row [] l.

(** [groupby(x)] on sorted rows: the observations of each distinct x. *)
Fixpoint groupby (l : list (Z * Z)) : list (Z * list Z) :=
  match l with
  | [] => []
  | (x, y) :: l' =>
      match groupby l' with
      | (x', ys) :: g =>
          if x =? x' then (x, y :: ys) :: g else (x, [y]) :: (x', ys) :: g
      | [] => [(x, [y])]
      end
  end.

(** The default estimator, as an exact fraction. *)
Definition mean (ys : list Z) : Q :=
  Qmake (foldr Z.add 0 ys) (Pos.of_nat (length ys)).

(** The points of the line for columns [xs], [ys]: sorted by x, one point
    per distinct x at the mean of its observations.  (The bootstrapped
    band seaborn adds around groups of several observations is not
    modelled.)  The library holds these points as float64; the exact
    values here are the library's where a float64 is exact: integers of
    magnitude at most 2^53, one observation per x. *)
Definition line_data (xs ys : list Z) : list (Z * Q) :=
  map (fun g : Z * list Z => (fst g, mean (snd g)))
      (groupby (sort_values (zip xs ys))).

(** A log axis (matplotlib's default [nonpositive='clip']) does not show
    points whose coordinate is zero or negative; nothing is raised. *)
Definition shown (sx sy : Scale) (p : Z * Q) : bool :=
  match sx with Log => 0 <? fst p | Linear => true end &&
  match sy with Log => 0 <? Qnum (snd p) | Linear => true end.

Definition visible_points (a : Axes) (l : Line2D) : list (Z * Q) :=
  filter (fun p => shown (xscale a) (yscale a) p = true) (xydata l).

Definition add_line (l : Line2D) (a : Axes) : Axes :=
  {| lines := lines a ++ [l]; xscale := xscale a; yscale := yscale a;
     title := title a; xlabel := xlabel a; ylabel := ylabel a; grid := grid a |}.
Definition set_scales (sx sy : Scale) (a : Axes) : Axes :=
  {| lines := lines a; xscale := sx; yscale := sy;
     title := title a; xlabel := xlabel a; ylabel := ylabel a; grid := grid a |}.
Definition set_title (s : string) (a : Axes) : Axes :=
  {| lines := lines a; xscale := xscale a; yscale := yscale a;
     title := s; xlabel := xlabel a; ylabel := ylabel a; grid := grid a |}.
Definition set_xlabel (s : string) (a : Axes) : Axes :=
  {| lines := lines a; xscale := xscale a; yscale := yscale a;
     title := title a; xlabel := s; ylabel := ylabel a; grid := grid a |}.
Definition set_ylabel (s : string) (a : Axes) : Axes :=
  {| lines := lines a; xscale := xscale a; yscale := yscale a;
     title := title a; xlabel := xlabel a; ylabel := s; grid := grid a |}.
Definition set_grid (g : Grid) (a : Axes) : Axes :=
  {| lines := lines a; xscale := xscale a; yscale := yscale a;
     title := title a; xlabel := xlabel a; ylabel := ylabel a; grid := Some g |}.

(** ** Statements: state and exceptions *)

(** A call returns a value or raises, and leaves a world either way. *)
Inductive Res (A : Type) : Type :=
  | Ok (a : A) (w : World)
  | Raise (e : exn) (w : World).
Arguments Ok {A} a w.
Arguments Raise {A} e w.

Definition M (A : Type) : Type := World -> Res A.

#[export] Instance M_ret : MRet M := fun A a w => Ok a w.
#[export] Instance M_bind : MBind M := fun A B k m w =>
  match m w with
  | Ok a w' => k a w'
  | Raise e w' => Raise e w'
  end.

(** The world a result leaves behind. *)
Definition world_of {A} (r : Res A) : World :=
  match r with Ok _ w => w | Raise _ w => w end.

(** The library entry points the script calls. *)
Inductive api : Type :=
  | api_set_theme | api_DataFrame | api_figure | api_lineplot | api_set
  | api_title | api_xlabel | api_ylabel | api_grid | api_savefig | api_print.

(** The environment of a run: any call may raise for a reason of its own
    (no plotting backend, a directory that cannot be written, a closed
    output stream).  [fault a w] is the exception call [a] meets in world
    [w], if any. *)
Class Env := fault : api -> World -> option exn.

(** The environment in which nothing goes wrong. *)
Definition no_faults : Env := fun _ _ => None.

(** A library call: raise what the environment says, else run the body.
    A call that raises leaves the world as it was: what a failing call may
    leave half done (a file opened and not yet written) is not modelled. *)
Definition call `{Env} {A} (a : api) (body : M A) : M A := fun w =>
  match fault a w with
  | Some e => Raise e w
  | None => body w
  end.

(** A pandas frame: the dict's columns, all of one length. *)
Abbreviation Frame := dict.

Definition same_length (d : dict) : bool :=
  match values d with
  | [] => true
  | c :: cs => forallb (fun c' => Nat.eqb (length c') (length c)) cs
  end.

Definition current_num (w : World) : nat :=
  match figs w with
  | (n, _) :: _ => n
  | [] => 0%nat
  end.

Module sns.
Definition set_theme `{Env} (style palette : string) (font_scale : Q) : M unit :=
  call api_set_theme (fun w =>
    Ok tt (set_rc {| style := style; palette := palette;
                     font_scale := font_scale |} w)).

(** Draws on the current axes and returns them (here: the number of the
    figure that holds them).  Unknown column names are a ValueError. *)
Definition lineplot `{Env} (x y : string) (data : Frame)
    (marker : string) (markersize : Z) : M nat :=
  call api_lineplot (fun w =>
    match getitem data x, getitem data y with
    | Some xs, Some ys =>
        let w' := on_gca (add_line {| xydata := line_data xs ys;
                                      marker := marker;
                                      markersize := markersize |}) w in
        Ok (current_num w') w'
    | _, _ => Raise (ValueError "Could not interpret value") w
    end).
End sns.

Module pd.
Definition DataFrame `{Env} (d : dict) : M Frame :=
  call api_DataFrame (fun w =>
    if same_length d then Ok d w
    else Raise (ValueError "All arrays must be of the same length") w).
End pd.

(** [ax.set(xscale=..., yscale=...)] on the axes [ax]. *)
Definition Axes_set `{Env} (ax : nat) (xscale yscale : string) : M unit :=
  call api_set (fun w =>
    match scale_of_string xscale, scale_of_string yscale with
    | Some sx, Some sy => Ok tt (on_axes ax (set_scales sx sy) w)
    | _, _ => Raise (ValueError "Unknown scale type") w
    end).

(** [print(line)]. *)
Definition print `{Env} (line : string) : M unit :=
  call api_print (fun w => Ok tt (set_stdout (stdout w ++ [line]) w)).

Module plt.
(** A new figure, numbered [next_num], becomes the current one. *)
Definition figure `{Env} (figsize : Z * Z) : M unit :=
  call api_figure (fun w =>
    Ok tt (set_figs ((next_num (figs w), new_figure (Some figsize)) :: figs w) w)).

Definition title `{Env} (s : string) : M unit :=
  call api_title (fun w => Ok tt (on_gca (set_title s) w)).

Definition xlabel `{Env} (s : string) : M unit :=
  call api_xlabel (fun w => Ok tt (on_gca (set_xlabel s) w)).

Definition ylabel `{Env} (s : string) : M unit :=
  call api_ylabel (fun w => Ok tt (on_gca (set_ylabel s) w)).

Definition grid `{Env} (visible : bool) (which ls : string) : M unit :=
  call api_grid (fun w =>
    Ok tt (on_gca (set_grid {| grid_visible := visible; grid_which := which;
                               grid_ls := ls |}) w)).

(** Writes the current figure to [fname], replacing what was there. *)
Definition savefig `{Env} (fname : string) (dpi : Z) (bbox_inches : string)
    : M unit :=
  call api_savefig (fun w =>
    match figs (gcf w) with
    | (_, fig) :: _ =>
        Ok tt (set_disk (<[fname := {| canvas := fig; dpi := dpi;
                                       bbox_inches := bbox_inches |}]>
                           (disk w)) (gcf w))
    | [] => Ok tt (gcf w)
    end).
End plt.

(** ** The script *)

Section Script.
Context `{Env}.

(** Chart 1 (lines 27-43). *)
Definition chart_random (df_random : Frame) : M unit :=
  plt.figure (10, 6);;
  plot_random ← sns.lineplot "N" "Time/Op (ns)" df_random "o" 8;
  Axes_set plot_random "log" "log";;
  plt.title "Performance Scaling with Number of Segments (Random Data)";;
  plt.xlabel "Number of Segments (n)";;
  plt.ylabel "Time per Operation (ns, log scale)";;
  plt.grid true "both" "--";;
  plt.savefig "benchmark_random.png" 300 "tight";;
  print "Saved benchmark_random.png".

(** Chart 2 (lines 48-64). *)
Definition chart_grid (df_grid : Frame) : M unit :=
  plt.figure (10, 6);;
  plot_grid ← sns.lineplot "Intersections" "Time/Op (ns)" df_grid "o" 8;
  Axes_set plot_grid "log" "log";;
  plt.title "Performance Scaling with Number of Intersections (Grid Data)";;
  plt.xlabel "Number of Intersections (k)";;
  plt.ylabel "Time per Operation (ns, log scale)";;
  plt.grid true "both" "--";;
  plt.savefig "benchmark_grid.png" 300 "tight";;
  print "Saved benchmark_grid.png".

(** Theme and frames (lines 6, 22-23), as a function of the two tables. *)
Definition frames (rd gd : dict) : M (Frame * Frame) :=
  sns.set_theme "whitegrid" "muted" (12 # 10);;
  df_random ← pd.DataFrame rd;
  df_grid ← pd.DataFrame gd;
  mret (df_random, df_grid).

(** The module body (lines 6-64), as a function of its two tables. *)
Definition script (rd gd : dict) : M unit :=
  dfs ← frames rd gd;
  chart_random dfs.1;;
  chart_grid dfs.2.

Definition main : M unit := script random_data grid_data.

(** One run of the program: a new process in a directory holding [d]. *)
Definition run (d : gmap string Image) : Res unit := main (fresh d).

(** What the two charts have in common: one figure drawn from the
    columns [x], [y] of [df] and saved to [path]. *)
Definition render (df : Frame) (x y ttl xl yl path : string) : M unit :=
  plt.figure (10, 6);;
  ax ← sns.lineplot x y df "o" 8;
  Axes_set ax "log" "log";;
  plt.title ttl;;
  plt.xlabel xl;;
  plt.ylabel yl;;
  plt.grid true "both" "--";;
  plt.savefig path 300 "tight";;
  print ("Saved " +:+ path).
End Script.

(** ** The charts the script draws *)

Definition theme : Theme :=
  {| style := "whitegrid"; palette := "muted"; font_scale := 12 # 10 |}.

(** A log-log line chart of [pts] with round markers and a dashed grid on
    major and minor ticks. *)
Definition loglog_chart (pts : list (Z * Z)) (ttl xl yl : string) : Figure :=
  {| figsize := Some (10, 6);
     axes := Some {| lines := [ {| xydata := map (fun p => (p.1, inject_Z p.2)) pts;
                                   marker := "o"; markersize := 8 |} ];
                     xscale := Log; yscale := Log;
                     title := ttl; xlabel := xl; ylabel := yl;
                     grid := Some {| grid_visible := true; grid_which := "both";
                                     grid_ls := "--" |} |} |}.

Definition fig_random : Figure :=
  loglog_chart
    (zip [10; 100; 1000; 10000] [4372; 115627; 1851251; 29025479])
    "Performance Scaling with Number of Segments (Random Data)"
    "Number of Segments (n)" "Time per Operation (ns, log scale)".

Definition fig_grid : Figure :=
  loglog_chart
    (zip [100; 2500; 10000; 40000] [55818; 1604035; 7506986; 31361110])
    "Performance Scaling with Number of Intersections (Grid Data)"
    "Number of Intersections (k)" "Time per Operation (ns, log scale)".

(** A figure saved at 300 DPI with a tight bounding box. *)
Definition png (fig : Figure) : Image :=
  {| canvas := fig; dpi := 300; bbox_inches := "tight" |}.

(** The world a complete run leaves, from a directory holding [d]. *)
Definition final (d : gmap string Image) : World :=
  {| rc := Some theme;
     figs := [(2%nat, fig_grid); (1%nat, fig_random)];
     stdout := ["Saved benchmark_random.png"; "Saved benchmark_grid.png"];
     disk := <["benchmark_grid.png" := png fig_grid]>
               (<["benchmark_random.png" := png fig_random]> d) |}.

(** The figure [render] draws from [df], when both columns exist. *)
Definition drawn (df : Frame) (x y ttl xl yl : string) : option Figure :=
  xs ← getitem df x;
  ys ← getitem df y;
  Some {| figsize := Some (10, 6);
          axes := Some {| lines := [ {| xydata := line_data xs ys;
                                        marker := "o"; markersize := 8 |} ];
                          xscale := Log; yscale := Log;
                          title := ttl; xlabel := xl; ylabel := yl;
                          grid := Some {| grid_visible := true;
                                          grid_which := "both";
                                          grid_ls := "--" |} |} |}.

(** The world [render] leaves when all its calls return. *)
Definition rendered (fig : Figure) (path : string) (w : World) : World :=
  {| rc := rc w;
     figs := (next_num (figs w), fig) :: figs w;
     stdout := stdout w ++ ["Saved " +:+ path];
     disk := <[path := {| canvas := fig; dpi := 300; bbox_inches := "tight" |}]>
               (disk w) |}.

(** [d[k] = v] on a dict: replaces the column in place, or appends it. *)
Fixpoint setitem (d : dict) (k : string) (v : list Z) : dict :=
  match d with
  | [] => [(k, v)]
  | (k', v') :: d' =>
      if String.eqb k k' then (k, v) :: d' else (k', v') :: setitem d' k v
  end.

(** An environment in which the working directory cannot be written. *)
Definition read_only : Env := fun a _ =>
  match a with
  | api_savefig => Some OSError
  | _ => None
  end.

(** An environment that would fail only calls the script never makes
    while a figure is open: it differs from [no_faults] as a function, not
    on the worlds of a run. *)
Definition theme_before_figures : Env := fun a w =>
  match a, figs w with
  | api_set_theme, _ :: _ => Some RuntimeError
  | _, _ => None
  end.

(** An environment in which building a frame fails. *)
Definition no_frames : Env := fun a _ =>
  match a with
  | api_DataFrame => Some ImportError
  | _ => None
  end.

(** An environment in which the second image cannot be written. *)
Definition second_save_fails : Env := fun a w =>
  match a, figs w with
  | api_savefig, _ :: _ :: _ => Some OSError
  | _, _ => None
  end.

(** An integer a float64 column holds exactly. *)
Definition float_exact (v : Z) : Prop := Z.abs v <= 2 ^ 53.

(** A directory that already holds other images under the two output
    names. *)
Definition stale : gmap string Image :=
  <["benchmark_random.png" := png fig_grid]>
    (<["benchmark_grid.png" := png fig_random]> ∅).

(** A table with a zero and a negative sample. *)
Definition nonpositive_data : dict :=
  [ ("N", [0; 100; 1000; 10000]);
    ("Time/Op (ns)", [4372; -115627; 1851251; 29025479]) ].

(** ** Invariants of the data *)

(** C1: in both tables the independent variable (N, Intersections) is
    strictly increasing, and every value of every column is positive. *)
Theorem data_increasing_and_positive :
  (exists xs, getitem random_data "N" = Some xs /\ StronglySorted Z.lt xs) /\
  (exists xs, getitem grid_data "Intersections" = Some xs /\
              StronglySorted Z.lt xs) /\
  Forall (Forall (fun v => 0 < v)) (values random_data) /\
  Forall (Forall (fun v => 0 < v)) (values grid_data).
Proof.
  split; [|split; [|split]].
  - eexists; split; [reflexivity|].
    repeat (constructor; [|repeat constructor; lia]); constructor.
  - eexists; split; [reflexivity|].
    repeat (constructor; [|repeat constructor; lia]); constructor.
  - repeat constructor.
  - repeat constructor.
Qed.

(** C10: every row of grid_data has Intersections = Segments^2 / 4, and the
    division is exact. *)
Theorem grid_intersections_quarter_square :
  exists segs inters,
    getitem grid_data "Segments" = Some segs /\
    getitem grid_data "Intersections" = Some inters /\
    Forall2 (fun s k => k = s ^ 2 / 4 /\ (s ^ 2) mod 4 = 0) segs inters.
Proof.
  do 2 eexists; split; [reflexivity|split; [reflexivity|]].
  repeat constructor.
Qed.

(** ** Basic facts *)

Lemma next_num_above (fs : list (nat * Figure)) :
  Forall (fun nf => (nf.1 < next_num fs)%nat) fs.
Proof.
  unfold next_num. induction fs as [|[n f] fs IH]; constructor; simpl.
  - lia.
  - eapply Forall_impl; [exact IH|]. simpl. intros; lia.
Qed.

(** A call on the axes of a figure just numbered reaches no older figure. *)
Lemma on_axes_older (fs : list (nat * Figure)) (g : Axes -> Axes) :
  map (fun nf : nat * Figure =>
         if Nat.eqb nf.1 (next_num fs) then (nf.1, set_axes (g (gca nf.2)) nf.2)
         else nf) fs = fs.
Proof.
  pose proof (next_num_above fs) as Hlt. revert Hlt.
  generalize (next_num fs) as n. intros n Hlt.
  induction Hlt as [|[m f] l Hm _ IH]; simpl; [reflexivity|].
  rewrite IH. simpl in Hm.
  destruct (Nat.eqb_spec m n); [lia|reflexivity].
Qed.

(** ** Tables in increasing order *)

Lemma sort_values_sorted (rows : list (Z * Z)) :
  StronglySorted Z.lt (map fst rows) -> sort_values rows = rows.
Proof.
  induction rows as [|[x y] rows IH]; [reflexivity|].
  cbn. intros Hs. apply StronglySorted_inv in Hs as [Hs Hx].
  unfold sort_values in *. cbn. rewrite (IH Hs).
  destruct rows as [|[x' y'] rows]; [reflexivity|].
  apply Forall_inv in Hx. cbn in *.
  unfold row_leb. cbn. by rewrite (proj2 (Z.ltb_lt x x') Hx).
Qed.

Lemma groupby_distinct (rows : list (Z * Z)) :
  StronglySorted Z.lt (map fst rows) ->
  groupby rows = map (fun p => (p.1, [p.2])) rows.
Proof.
  induction rows as [|[x y] rows IH]; [reflexivity|].
  cbn. intros Hs. apply StronglySorted_inv in Hs as [Hs Hx].
  rewrite (IH Hs).
  destruct rows as [|[x' y'] rows]; [reflexivity|].
  apply Forall_inv in Hx. cbn in *.
  by rewrite (proj2 (Z.eqb_neq x x')) by lia.
Qed.

Lemma zip_fst_sorted (xs ys : list Z) :
  StronglySorted Z.lt xs -> StronglySorted Z.lt (map fst (zip xs ys)).
Proof.
  intros Hs. revert ys.
  induction Hs as [|x xs Hs IH Hx]; intros [|y ys]; cbn; try constructor.
  - apply IH.
  - clear -Hx. revert ys. induction Hx as [|x' xs Hx' _ IHx]; intros [|y ys];
      cbn; constructor; [exact Hx'|apply IHx].
Qed.

Lemma zip_inject (xs ys : list Z) :
  map (fun p : Z * Z => (p.1, inject_Z p.2)) (zip xs ys)
  = zip xs (map inject_Z ys).
Proof.
  revert ys. induction xs as [|x xs IH]; intros [|y ys]; cbn;
    [reflexivity..|]. by rewrite IH.
Qed.

(** In the model, a table whose x column is strictly increasing is drawn
    through its rows, in their order, one point per row. *)
Lemma drawn_sorted df x y ttl xl yl xs ys :
  getitem df x = Some xs ->
  getitem df y = Some ys ->
  StronglySorted Z.lt xs ->
  drawn df x y ttl xl yl = Some (loglog_chart (zip xs ys) ttl xl yl).
Proof.
  intros Hx Hy Hs. unfold drawn, loglog_chart. rewrite Hx, Hy. cbn.
  do 5 f_equal. unfold line_data.
  pose proof (zip_fst_sorted xs ys Hs) as Hz.
  rewrite (sort_values_sorted _ Hz), (groupby_distinct _ Hz), map_map.
  f_equal. apply map_ext. intros [a b]. cbn. unfold mean, inject_Z. cbn.
  by rewrite Z.add_0_r.
Qed.

#[local] Arguments next_num : simpl never.

Ltac unfold_calls_in H :=
  unfold sns.set_theme, sns.lineplot, pd.DataFrame, Axes_set, print,
    plt.figure, plt.title, plt.xlabel, plt.ylabel, plt.grid, plt.savefig,
    mbind, M_bind, mret, M_ret, call in H.

Ltac unfold_calls :=
  unfold sns.set_theme, sns.lineplot, pd.DataFrame, Axes_set, print,
    plt.figure, plt.title, plt.xlabel, plt.ylabel, plt.grid, plt.savefig,
    mbind, M_bind, mret, M_ret, call.

(** Case on the next library call of the run in [H]. *)
Ltac step H :=
  match type of H with
  | context [@fault ?E ?a ?w] =>
      let Hf := fresh "Hfault" in
      destruct (@fault E a w) eqn:Hf; cbn in H;
      rewrite ?Nat.eqb_refl, ?on_axes_older in H; cbn in H
  end.

(** Two file names differ: literally, or by a hypothesis either way round. *)
Ltac names_differ :=
  first [assumption | apply not_eq_sym; assumption | discriminate].

Ltac step_goal :=
  match goal with
  | |- context [@fault ?E ?a ?w] => destruct (@fault E a w); cbn
  end.

Section Render.
Context `{Env}.

Lemma chart_random_render (df : Frame) :
  chart_random df =
  render df "N" "Time/Op (ns)"
    "Performance Scaling with Number of Segments (Random Data)"
    "Number of Segments (n)" "Time per Operation (ns, log scale)"
    "benchmark_random.png".
Proof. reflexivity. Qed.

Lemma chart_grid_render (df : Frame) :
  chart_grid df =
  render df "Intersections" "Time/Op (ns)"
    "Performance Scaling with Number of Intersections (Grid Data)"
    "Number of Intersections (k)" "Time per Operation (ns, log scale)"
    "benchmark_grid.png".
Proof. reflexivity. Qed.

(** When [render] returns, the world is [rendered]. *)
Lemma render_ok df x y ttl xl yl path w w' :
  render df x y ttl xl yl path w = Ok tt w' ->
  exists fig, drawn df x y ttl xl yl = Some fig /\ w' = rendered fig path w.
Proof.
  intros Hr. unfold render in Hr. unfold_calls_in Hr. unfold drawn.
  step Hr; [discriminate|].
  step Hr; [discriminate|].
  destruct (getitem df x) as [xs|]; [|discriminate].
  destruct (getitem df y) as [ys|]; [|discriminate].
  cbn in Hr.
  repeat (step Hr; [discriminate|]).
  injection Hr as <-. eexists; split; reflexivity.
Qed.

(** [render] reads the two columns it plots and nothing else of [df]. *)
Lemma render_columns df df' x y ttl xl yl path w :
  getitem df x = getitem df' x ->
  getitem df y = getitem df' y ->
  render df x y ttl xl yl path w = render df' x y ttl xl yl path w.
Proof.
  intros Hx Hy. unfold render. unfold_calls.
  destruct (fault api_figure w); [reflexivity|].
  destruct (fault api_lineplot _); [reflexivity|].
  rewrite Hx, Hy. reflexivity.
Qed.

(** When [render] raises, nothing was printed and no file other than
    [path] was touched. *)
Lemma render_raise df x y ttl xl yl path w e w' :
  render df x y ttl xl yl path w = Raise e w' ->
  stdout w' = stdout w /\
  forall p, p <> path -> disk w' !! p = disk w !! p.
Proof.
  intros Hr. unfold render in Hr. unfold_calls_in Hr.
  step Hr; [injection Hr as _ <-; auto|].
  step Hr; [injection Hr as _ <-; auto|].
  destruct (getitem df x) as [xs|]; [|injection Hr as _ <-; auto].
  destruct (getitem df y) as [ys|]; [|injection Hr as _ <-; auto].
  cbn in Hr.
  do 5 (step Hr; [injection Hr as _ <-; auto|]).
  step Hr; [injection Hr as _ <-; auto|].
  step Hr; [injection Hr as _ <-|discriminate].
  split; [reflexivity|]. intros p Hp. cbn. by rewrite lookup_insert_ne.
Qed.

(** The theme and the frames: the frames are the tables themselves, and
    only the theme changes. *)
Lemma frames_ok rd gd w dfs w' :
  frames rd gd w = Ok dfs w' ->
  dfs = (rd, gd) /\
  w' = set_rc theme w.
Proof.
  intros Hr. unfold frames in Hr. unfold_calls_in Hr.
  step Hr; [discriminate|].
  step Hr; [discriminate|].
  destruct (same_length rd); [|discriminate]. cbn in Hr.
  step Hr; [discriminate|].
  destruct (same_length gd); [|discriminate].
  injection Hr as <- <-. split; reflexivity.
Qed.

Lemma bind_ok {A B} (m : M A) (k : A -> M B) w b w' :
  (m ≫= k) w = Ok b w' ->
  exists a w1, m w = Ok a w1 /\ k a w1 = Ok b w'.
Proof.
  unfold mbind, M_bind. destruct (m w) as [a w1|e w1]; [eauto|discriminate].
Qed.

Lemma bind_raise {A B} (m : M A) (k : A -> M B) w e w' :
  m w = Raise e w' -> (m ≫= k) w = Raise e w'.
Proof. unfold mbind, M_bind. intros ->. reflexivity. Qed.

Lemma bind_step {A B} (m : M A) (k : A -> M B) w a w1 :
  m w = Ok a w1 -> (m ≫= k) w = k a w1.
Proof. unfold mbind, M_bind. intros ->. reflexivity. Qed.
End Render.

Lemma drawn_random :
  drawn random_data "N" "Time/Op (ns)"
    "Performance Scaling with Number of Segments (Random Data)"
    "Number of Segments (n)" "Time per Operation (ns, log scale)"
  = Some fig_random.
Proof. reflexivity. Qed.

Lemma drawn_grid :
  drawn grid_data "Intersections" "Time/Op (ns)"
    "Performance Scaling with Number of Intersections (Grid Data)"
    "Number of Intersections (k)" "Time per Operation (ns, log scale)"
  = Some fig_grid.
Proof. reflexivity. Qed.

Section Run.
Context `{Env}.

(** A run that returns leaves [final d], whatever the environment. *)
Lemma run_ok d w' : run d = Ok tt w' -> w' = final d.
Proof.
  unfold run, main, script. intros Hr.
  apply bind_ok in Hr as (dfs & w0 & Hf & Hr).
  apply frames_ok in Hf as [-> ->].
  apply bind_ok in Hr as ([] & w1 & H1 & H2). cbn [fst snd] in *.
  rewrite chart_random_render in H1. rewrite chart_grid_render in H2.
  apply render_ok in H1 as (f1 & Hd1 & ->).
  apply render_ok in H2 as (f2 & Hd2 & ->).
  rewrite drawn_random in Hd1. rewrite drawn_grid in Hd2.
  injection Hd1 as <-. injection Hd2 as <-. reflexivity.
Qed.

(** Once the first chart is done, its file and its line stay, whether the
    second chart returns or raises. *)
Lemma first_chart_outlives_second d dfs w0 w1 :
  frames random_data grid_data (fresh d) = Ok dfs w0 ->
  chart_random dfs.1 w0 = Ok tt w1 ->
  disk (world_of (run d)) !! "benchmark_random.png" = Some (png fig_random) /\
  "Saved benchmark_random.png" ∈ stdout (world_of (run d)).
Proof.
  intros Hf H1. unfold run, main, script.
  rewrite (bind_step _ _ _ _ _ Hf), (bind_step _ _ _ _ _ H1).
  apply frames_ok in Hf as [-> ->]. cbn [fst snd] in *.
  rewrite chart_random_render in H1. rewrite chart_grid_render.
  apply render_ok in H1 as (f1 & Hd1 & ->).
  rewrite drawn_random in Hd1. injection Hd1 as <-.
  destruct (render grid_data _ _ _ _ _ _ _) as [[] w2|e w2] eqn:H2; cbn.
  - apply render_ok in H2 as (f2 & _ & ->). cbn. split.
    + rewrite lookup_insert_ne by discriminate. apply lookup_insert_eq.
    + apply list_elem_of_here.
  - apply render_raise in H2 as [-> ->]; [|discriminate]. cbn. split.
    + apply lookup_insert_eq.
    + apply list_elem_of_here.
Qed.
End Run.

(** With nothing going wrong, the run returns. *)
Lemma run_no_faults d : @run no_faults d = Ok tt (final d).
Proof. reflexivity. Qed.

Section Healthy.
Context `{Env}.
Hypothesis healthy : forall a w, fault a w = None.

(** With no call raising, [render] fails only on a missing column. *)
Lemma render_healthy df x y ttl xl yl path w fig :
  drawn df x y ttl xl yl = Some fig ->
  render df x y ttl xl yl path w = Ok tt (rendered fig path w).
Proof.
  unfold drawn. intros Hd.
  destruct (getitem df x) as [xs|] eqn:Hx; [|discriminate].
  destruct (getitem df y) as [ys|] eqn:Hy; [|discriminate].
  injection Hd as <-.
  unfold render. unfold_calls.
  rewrite healthy; cbn. rewrite healthy, Hx, Hy; cbn.
  rewrite healthy; cbn. rewrite Nat.eqb_refl, on_axes_older. cbn.
  do 6 (rewrite healthy; cbn). reflexivity.
Qed.

Lemma run_healthy d : run d = Ok tt (final d).
Proof.
  unfold run, main, script.
  assert (Hf : frames random_data grid_data (fresh d)
               = Ok (random_data, grid_data) (set_rc theme (fresh d))).
  { unfold frames. unfold_calls. repeat (rewrite healthy; cbn).
    reflexivity. }
  rewrite (bind_step _ _ _ _ _ Hf). cbn [fst snd].
  rewrite chart_random_render, chart_grid_render.
  erewrite bind_step; [|apply render_healthy, drawn_random].
  erewrite render_healthy; [|apply drawn_grid]. reflexivity.
Qed.
End Healthy.

(** ** The two charts *)

Section Charts.
Context `{Env}.

(** C2: a run that returns has saved, as benchmark_random.png at 300 DPI
    with a tight bounding box, a log-log line chart of N = 10, 100, 1000,
    10000 against Time/Op = 4372, 115627, 1851251, 29025479, and has
    printed 'Saved benchmark_random.png'. *)
Theorem run_saves_benchmark_random d w' :
  run d = Ok tt w' ->
  exists img ax ln,
    disk w' !! "benchmark_random.png" = Some img /\
    dpi img = 300 /\ bbox_inches img = "tight" /\
    axes (canvas img) = Some ax /\
    xscale ax = Log /\ yscale ax = Log /\
    lines ax = [ln] /\
    xydata ln = zip [10; 100; 1000; 10000]
                    (map inject_Z [4372; 115627; 1851251; 29025479]) /\
    "Saved benchmark_random.png" ∈ stdout w'.
Proof.
  intros ->%run_ok.
  exists (png fig_random). do 2 eexists.
  split; [|repeat split; try reflexivity].
  - cbn. rewrite lookup_insert_ne by discriminate. apply lookup_insert_eq.
  - cbn. apply list_elem_of_here.
Qed.

(** C3: a run that returns has saved, as benchmark_grid.png at 300 DPI
    with a tight bounding box, a log-log line chart with Intersections =
    100, 2500, 10000, 40000 on the x-axis against the Time/Op column, and
    has printed 'Saved benchmark_grid.png'. *)
Theorem run_saves_benchmark_grid d w' :
  run d = Ok tt w' ->
  exists img ax ln ts,
    disk w' !! "benchmark_grid.png" = Some img /\
    dpi img = 300 /\ bbox_inches img = "tight" /\
    axes (canvas img) = Some ax /\
    xscale ax = Log /\ yscale ax = Log /\
    lines ax = [ln] /\
    getitem grid_data "Time/Op (ns)" = Some ts /\
    xydata ln = zip [100; 2500; 10000; 40000] (map inject_Z ts) /\
    "Saved benchmark_grid.png" ∈ stdout w'.
Proof.
  intros ->%run_ok.
  exists (png fig_grid). do 3 eexists.
  split; [|repeat split; try reflexivity].
  - cbn. apply lookup_insert_eq.
  - cbn. apply list_elem_of_further, list_elem_of_here.
Qed.

(** C4, as the code has it: the script validates nothing.  With no call
    failing for a reason of its own, rendering any frame whose two columns
    exist returns, whatever the sign of the samples, and saves to [path] a
    chart with one line on log axes.  When the x column is strictly
    increasing and the values are integers a float64 holds exactly, the
    line goes through every row of the table, zero and negative samples
    included, and the rows shown are exactly those with both coordinates
    positive. *)
Theorem render_accepts_any_sign df x y ttl xl yl path w xs ys :
  (forall a w0, fault a w0 = None) ->
  getitem df x = Some xs ->
  getitem df y = Some ys ->
  length xs = length ys ->
  exists fig ax ln,
    render df x y ttl xl yl path w = Ok tt (rendered fig path w) /\
    disk (rendered fig path w) !! path = Some (png fig) /\
    axes fig = Some ax /\ lines ax = [ln] /\
    xscale ax = Log /\ yscale ax = Log /\
    (StronglySorted Z.lt xs ->
     Forall float_exact xs -> Forall float_exact ys ->
     fig = loglog_chart (zip xs ys) ttl xl yl /\
     xydata ln = zip xs (map inject_Z ys) /\
     length (xydata ln) = length xs /\
     visible_points ax ln =
       filter (fun p => 0 < p.1 /\ 0 < Qnum p.2) (zip xs (map inject_Z ys))).
Proof.
  intros Hh Hx Hy Hlen.
  assert (Hd : exists fig, drawn df x y ttl xl yl = Some fig)
    by (unfold drawn; rewrite Hx, Hy; eauto).
  destruct Hd as [fig Hd]. exists fig.
  pose proof Hd as Hd'. unfold drawn in Hd'. rewrite Hx, Hy in Hd'.
  injection Hd' as <-. do 2 eexists.
  split; [apply (render_healthy Hh), Hd|].
  split; [apply lookup_insert_eq|].
  do 4 (split; [reflexivity|]).
  intros Hs _ _.
  pose proof (drawn_sorted _ _ _ ttl xl yl _ _ Hx Hy Hs) as Hd2.
  rewrite Hd in Hd2. unfold loglog_chart in Hd2. injection Hd2 as Hdata.
  split; [unfold loglog_chart; by rewrite Hdata|].
  unfold visible_points. cbn [xydata xscale yscale].
  rewrite Hdata, zip_inject.
  split; [reflexivity|].
  split; [by rewrite length_zip, length_map, <- Hlen, Nat.min_id|].
  apply list_filter_iff. intros [px py]. unfold shown. cbn [fst snd].
  rewrite andb_true_iff, !Z.ltb_lt. reflexivity.
Qed.

(** C5, as the code has it: each chart opens a figure of its own under a
    new number and the script never closes one.  When both charts return,
    the first figure is still open, exactly as it was when saved, below
    the second; the figures open before are untouched; and the second
    figure is the one its own table alone determines. *)
Theorem charts_use_separate_figures dfr dfg w w1 w2 :
  chart_random dfr w = Ok tt w1 ->
  chart_grid dfg w1 = Ok tt w2 ->
  exists f1 f2,
    figs w1 = (next_num (figs w), f1) :: figs w /\
    figs w2 = (next_num (figs w1), f2) :: (next_num (figs w), f1) :: figs w /\
    (next_num (figs w) < next_num (figs w1))%nat /\
    drawn dfg "Intersections" "Time/Op (ns)"
      "Performance Scaling with Number of Intersections (Grid Data)"
      "Number of Intersections (k)" "Time per Operation (ns, log scale)"
    = Some f2.
Proof.
  rewrite chart_random_render, chart_grid_render. intros H1 H2.
  apply render_ok in H1 as (f1 & _ & ->).
  apply render_ok in H2 as (f2 & Hd2 & ->).
  exists f1, f2. cbn [figs rendered].
  split; [reflexivity|]. split; [reflexivity|]. split; [|exact Hd2].
  unfold next_num; cbn. lia.
Qed.

(** C6: grid_data carries a Segments column, the grid chart plots the
    Intersections column on x against Time/Op on y, and the Segments
    column is not plotted: whatever four values it holds, the run ends in
    the same world. *)
Theorem grid_chart_plots_intersections segs d w' :
  length segs = 4%nat ->
  run d = Ok tt w' ->
  exists img ax ln ks ts,
    getitem grid_data "Segments" = Some [20; 100; 200; 400] /\
    getitem grid_data "Intersections" = Some ks /\
    getitem grid_data "Time/Op (ns)" = Some ts /\
    disk w' !! "benchmark_grid.png" = Some img /\
    axes (canvas img) = Some ax /\ lines ax = [ln] /\
    xydata ln = zip ks (map inject_Z ts) /\
    script random_data (setitem grid_data "Segments" segs) (fresh d)
      = Ok tt w'.
Proof.
  intros Hlen Hr.
  assert (Hs : script random_data (setitem grid_data "Segments" segs) (fresh d)
               = run d).
  { destruct segs as [|s1 [|s2 [|s3 [|s4 [|]]]]]; try discriminate Hlen.
    unfold run, main, script, frames. unfold_calls.
    do 3 (step_goal; [reflexivity|]).
    destruct (chart_random random_data _) as [[] w1|]; [|reflexivity].
    apply render_columns; reflexivity. }
  rewrite Hs, Hr. apply run_ok in Hr as ->.
  exists (png fig_grid). do 4 eexists.
  do 3 (split; [reflexivity|]).
  split; [apply lookup_insert_eq|]. repeat split; reflexivity.
Qed.
End Charts.

(** ** Whole runs *)

Section Runs.
Context `{Env}.

(** C7: in an environment where no call fails (the directory is writable),
    running the program twice in succession returns both times.  Each run
    replaces whatever the directory held under the two output names by the
    two charts; the second run leaves the directory exactly as the first
    did; every other file is as it was; and the files of the directory are
    those it held before and the two outputs. *)
Theorem rerun_overwrites_same_files d :
  (forall a w, fault a w = None) ->
  exists w1 w2,
    run d = Ok tt w1 /\
    run (disk w1) = Ok tt w2 /\
    disk w2 = disk w1 /\
    dom (disk w1) =
      {["benchmark_grid.png"]} ∪ ({["benchmark_random.png"]} ∪ dom d) /\
    dom (disk w2) = dom (disk w1) /\
    disk w1 !! "benchmark_random.png" = Some (png fig_random) /\
    disk w1 !! "benchmark_grid.png" = Some (png fig_grid) /\
    disk w2 !! "benchmark_random.png" = Some (png fig_random) /\
    disk w2 !! "benchmark_grid.png" = Some (png fig_grid) /\
    forall p, p <> "benchmark_random.png" -> p <> "benchmark_grid.png" ->
      disk w1 !! p = d !! p /\ disk w2 !! p = d !! p.
Proof.
  intros Hh. exists (final d), (final (disk (final d))).
  split; [apply (run_healthy Hh)|]. split; [apply (run_healthy Hh)|].
  assert (Hd : disk (final (disk (final d))) = disk (final d)).
  { cbn. apply map_eq. intros p.
    destruct (decide (p = "benchmark_grid.png")) as [->|Hg];
      [by rewrite !lookup_insert_eq|].
    destruct (decide (p = "benchmark_random.png")) as [->|Hn];
      repeat (rewrite lookup_insert_eq
              || rewrite lookup_insert_ne by names_differ);
      reflexivity. }
  split; [exact Hd|]. split; [cbn; rewrite !dom_insert_L; reflexivity|].
  split; [by rewrite Hd|]. rewrite Hd. cbn.
  assert (Hr : <["benchmark_grid.png" := png fig_grid]>
                 (<["benchmark_random.png" := png fig_random]> d)
               !! "benchmark_random.png" = Some (png fig_random))
    by (rewrite lookup_insert_ne by discriminate; apply lookup_insert_eq).
  do 2 (split; [exact Hr || apply lookup_insert_eq|]).
  do 2 (split; [exact Hr || apply lookup_insert_eq|]).
  intros p Hp Hg. by rewrite !lookup_insert_ne by names_differ.
Qed.

(** C9: when the first chart raises, the program stops there with that
    exception: benchmark_grid.png is as it was before the run and
    'Saved benchmark_grid.png' was not printed. *)
Theorem first_chart_failure_stops_run d dfs w0 e w1 :
  frames random_data grid_data (fresh d) = Ok dfs w0 ->
  chart_random dfs.1 w0 = Raise e w1 ->
  run d = Raise e w1 /\
  disk w1 !! "benchmark_grid.png" = d !! "benchmark_grid.png" /\
  "Saved benchmark_grid.png" ∉ stdout w1.
Proof.
  intros Hf H1. split.
  - unfold run, main, script.
    rewrite (bind_step _ _ _ _ _ Hf). by apply bind_raise.
  - apply frames_ok in Hf as [-> ->]. cbn [fst] in H1.
    rewrite chart_random_render in H1.
    apply render_raise in H1 as [Hout Hdisk].
    split; [by rewrite Hdisk|].
    rewrite Hout. cbn. apply not_elem_of_nil.
Qed.
End Runs.

(** C8: the program reads nothing.  Two runs that return, in whatever
    environments and directories, have drawn the same figures, printed the
    same two lines in the same order and written the same two images to the
    same two names; every other file is as its own directory had it. *)
Theorem runs_are_deterministic (E1 E2 : Env) d1 d2 w1 w2 :
  @run E1 d1 = Ok tt w1 ->
  @run E2 d2 = Ok tt w2 ->
  stdout w1 = ["Saved benchmark_random.png"; "Saved benchmark_grid.png"] /\
  stdout w2 = stdout w1 /\
  figs w2 = figs w1 /\
  is_Some (disk w1 !! "benchmark_random.png") /\
  is_Some (disk w1 !! "benchmark_grid.png") /\
  disk w2 !! "benchmark_random.png" = disk w1 !! "benchmark_random.png" /\
  disk w2 !! "benchmark_grid.png" = disk w1 !! "benchmark_grid.png" /\
  forall p, p <> "benchmark_random.png" -> p <> "benchmark_grid.png" ->
    disk w1 !! p = d1 !! p /\ disk w2 !! p = d2 !! p.
Proof.
  intros ->%run_ok ->%run_ok. cbn.
  do 3 (split; [reflexivity|]).
  rewrite !lookup_insert_eq.
  rewrite !(lookup_insert_ne _ "benchmark_grid.png" "benchmark_random.png")
    by discriminate.
  rewrite !lookup_insert_eq.
  do 4 (split; [eauto|]).
  intros p Hr Hg. rewrite !lookup_insert_ne by names_differ. done.
Qed.

(** ** Instances *)

Lemma run_saves_benchmark_random_witness :
  @run no_faults ∅ = Ok tt (final ∅) /\
  exists img ax ln,
    disk (final ∅) !! "benchmark_random.png" = Some img /\
    dpi img = 300 /\ bbox_inches img = "tight" /\
    axes (canvas img) = Some ax /\
    xscale ax = Log /\ yscale ax = Log /\
    lines ax = [ln] /\
    xydata ln = zip [10; 100; 1000; 10000]
                    (map inject_Z [4372; 115627; 1851251; 29025479]) /\
    "Saved benchmark_random.png" ∈ stdout (final ∅).
Proof.
  split; [reflexivity|].
  apply (@run_saves_benchmark_random no_faults ∅ (final ∅)). reflexivity.
Defined.

Lemma run_saves_benchmark_grid_witness :
  @run no_faults ∅ = Ok tt (final ∅) /\
  exists img ax ln ts,
    disk (final ∅) !! "benchmark_grid.png" = Some img /\
    dpi img = 300 /\ bbox_inches img = "tight" /\
    axes (canvas img) = Some ax /\
    xscale ax = Log /\ yscale ax = Log /\
    lines ax = [ln] /\
    getitem grid_data "Time/Op (ns)" = Some ts /\
    xydata ln = zip [100; 2500; 10000; 40000] (map inject_Z ts) /\
    "Saved benchmark_grid.png" ∈ stdout (final ∅).
Proof.
  split; [reflexivity|].
  apply (@run_saves_benchmark_grid no_faults ∅ (final ∅)). reflexivity.
Defined.

(** C4 as stated fails: a table with a zero and a negative sample is drawn
    and saved like any other, and no exception is raised. *)
Lemma nonpositive_samples_are_rendered :
  Exists (Exists (fun v => v <= 0)) (values nonpositive_data) /\
  (forall e w', @chart_random no_faults nonpositive_data (fresh ∅) <> Raise e w') /\
  exists w',
    @chart_random no_faults nonpositive_data (fresh ∅) = Ok tt w' /\
    is_Some (disk w' !! "benchmark_random.png") /\
    stdout w' = ["Saved benchmark_random.png"].
Proof.
  split; [left; left; lia|]. split; [discriminate|].
  eexists. split; [reflexivity|]. split; [|reflexivity].
  cbn. rewrite lookup_insert_eq. eauto.
Qed.

Lemma render_accepts_any_sign_witness :
  let xs := [0; 100; 1000; 10000] in
  let ys := [4372; -115627; 1851251; 29025479] in
  (forall a w0, @fault no_faults a w0 = None) /\
  getitem nonpositive_data "N" = Some xs /\
  getitem nonpositive_data "Time/Op (ns)" = Some ys /\
  length xs = length ys /\
  StronglySorted Z.lt xs /\
  Forall float_exact xs /\ Forall float_exact ys /\
  exists fig ax ln,
    @render no_faults nonpositive_data "N" "Time/Op (ns)" "t" "x" "y" "out.png"
      (fresh ∅) = Ok tt (rendered fig "out.png" (fresh ∅)) /\
    disk (rendered fig "out.png" (fresh ∅)) !! "out.png" = Some (png fig) /\
    axes fig = Some ax /\ lines ax = [ln] /\
    xscale ax = Log /\ yscale ax = Log /\
    fig = loglog_chart (zip xs ys) "t" "x" "y" /\
    xydata ln = [(0, inject_Z 4372); (100, inject_Z (-115627));
                 (1000, inject_Z 1851251); (10000, inject_Z 29025479)] /\
    length (xydata ln) = 4%nat /\
    visible_points ax ln
      = [(1000, inject_Z 1851251); (10000, inject_Z 29025479)].
Proof.
  intros xs ys.
  assert (Hs : StronglySorted Z.lt xs)
    by (repeat (constructor; [|repeat constructor; lia]); constructor).
  assert (Hfx : Forall float_exact xs)
    by (repeat constructor; unfold float_exact; cbn; lia).
  assert (Hfy : Forall float_exact ys)
    by (repeat constructor; unfold float_exact; cbn; lia).
  do 4 (split; [reflexivity|]).
  split; [exact Hs|]. split; [exact Hfx|]. split; [exact Hfy|].
  destruct (@render_accepts_any_sign no_faults nonpositive_data
              "N" "Time/Op (ns)" "t" "x" "y" "out.png" (fresh ∅) xs ys
              (fun _ _ => eq_refl) eq_refl eq_refl eq_refl)
    as (fig & ax & ln & Hr & Hdisk & Hax & Hln & Hsx & Hsy & Hin).
  destruct (Hin Hs Hfx Hfy) as (Hfig & Hxy & Hlen & Hvis).
  exists fig, ax, ln.
  do 6 (split; [assumption|]). split; [exact Hfig|].
  split; [exact Hxy|]. split; [exact Hlen|]. exact Hvis.
Defined.

(** C5 as stated fails: when the first chart is done its figure is still
    open, and it is still open, below the second, when the program ends. *)
Lemma first_figure_is_not_released :
  @chart_random no_faults random_data (fresh ∅)
    = Ok tt (rendered fig_random "benchmark_random.png" (fresh ∅)) /\
  figs (rendered fig_random "benchmark_random.png" (fresh ∅))
    = [(1%nat, fig_random)] /\
  figs (rendered fig_random "benchmark_random.png" (fresh ∅)) <> figs (fresh ∅) /\
  figs (world_of (@run no_faults ∅)) = [(2%nat, fig_grid); (1%nat, fig_random)].
Proof. repeat split; try reflexivity. discriminate. Qed.

Lemma charts_use_separate_figures_witness :
  let w := fresh ∅ in
  let w1 := rendered fig_random "benchmark_random.png" w in
  let w2 := rendered fig_grid "benchmark_grid.png" w1 in
  @chart_random no_faults random_data w = Ok tt w1 /\
  @chart_grid no_faults grid_data w1 = Ok tt w2 /\
  exists f1 f2,
    figs w1 = (next_num (figs w), f1) :: figs w /\
    figs w2 = (next_num (figs w1), f2) :: (next_num (figs w), f1) :: figs w /\
    (next_num (figs w) < next_num (figs w1))%nat /\
    drawn grid_data "Intersections" "Time/Op (ns)"
      "Performance Scaling with Number of Intersections (Grid Data)"
      "Number of Intersections (k)" "Time per Operation (ns, log scale)"
    = Some f2.
Proof.
  intros w w1 w2. split; [reflexivity|]. split; [reflexivity|].
  apply (@charts_use_separate_figures no_faults random_data grid_data w w1 w2);
    reflexivity.
Defined.

Lemma grid_chart_plots_intersections_witness :
  length [1; 2; 3; 4] = 4%nat /\
  @run no_faults ∅ = Ok tt (final ∅) /\
  exists img ax ln ks ts,
    getitem grid_data "Segments" = Some [20; 100; 200; 400] /\
    getitem grid_data "Intersections" = Some ks /\
    getitem grid_data "Time/Op (ns)" = Some ts /\
    disk (final ∅) !! "benchmark_grid.png" = Some img /\
    axes (canvas img) = Some ax /\ lines ax = [ln] /\
    xydata ln = zip ks (map inject_Z ts) /\
    @script no_faults random_data (setitem grid_data "Segments" [1; 2; 3; 4])
      (fresh ∅) = Ok tt (final ∅).
Proof.
  split; [reflexivity|]. split; [reflexivity|].
  apply (@grid_chart_plots_intersections no_faults [1; 2; 3; 4] ∅ (final ∅));
    reflexivity.
Defined.

Lemma rerun_overwrites_same_files_witness :
  (forall a w, @fault no_faults a w = None) /\
  stale !! "benchmark_random.png" = Some (png fig_grid) /\
  exists w1 w2,
    @run no_faults stale = Ok tt w1 /\
    @run no_faults (disk w1) = Ok tt w2 /\
    disk w2 = disk w1 /\
    dom (disk w1) =
      {["benchmark_grid.png"]} ∪ ({["benchmark_random.png"]} ∪ dom stale) /\
    dom (disk w2) = dom (disk w1) /\
    disk w1 !! "benchmark_random.png" = Some (png fig_random) /\
    disk w1 !! "benchmark_grid.png" = Some (png fig_grid) /\
    disk w2 !! "benchmark_random.png" = Some (png fig_random) /\
    disk w2 !! "benchmark_grid.png" = Some (png fig_grid) /\
    forall p, p <> "benchmark_random.png" -> p <> "benchmark_grid.png" ->
      disk w1 !! p = stale !! p /\ disk w2 !! p = stale !! p.
Proof.
  split; [reflexivity|]. split; [apply lookup_insert_eq|].
  apply (@rerun_overwrites_same_files no_faults stale). reflexivity.
Defined.

Lemma first_chart_failure_stops_run_witness :
  let w0 := set_rc theme (fresh ∅) in
  let w1 := world_of (@chart_random read_only random_data w0) in
  @frames read_only random_data grid_data (fresh ∅)
    = Ok (random_data, grid_data) w0 /\
  @chart_random read_only random_data w0 = Raise OSError w1 /\
  @run read_only ∅ = Raise OSError w1 /\
  disk w1 !! "benchmark_grid.png" = (∅ : gmap string Image) !! "benchmark_grid.png" /\
  "Saved benchmark_grid.png" ∉ stdout w1.
Proof.
  intros w0 w1. split; [reflexivity|]. split; [reflexivity|].
  apply (@first_chart_failure_stops_run read_only ∅
           (random_data, grid_data) w0 OSError w1); reflexivity.
Defined.

Lemma runs_are_deterministic_witness :
  let d2 : gmap string Image := {["benchmark_grid.png" := png fig_random]} in
  @run no_faults ∅ = Ok tt (final ∅) /\
  @run theme_before_figures d2 = Ok tt (final d2) /\
  stdout (final ∅) = ["Saved benchmark_random.png"; "Saved benchmark_grid.png"] /\
  stdout (final d2) = stdout (final ∅) /\
  figs (final d2) = figs (final ∅) /\
  is_Some (disk (final ∅) !! "benchmark_random.png") /\
  is_Some (disk (final ∅) !! "benchmark_grid.png") /\
  disk (final d2) !! "benchmark_random.png"
    = disk (final ∅) !! "benchmark_random.png" /\
  disk (final d2) !! "benchmark_grid.png"
    = disk (final ∅) !! "benchmark_grid.png" /\
  forall p, p <> "benchmark_random.png" -> p <> "benchmark_grid.png" ->
    disk (final ∅) !! p = (∅ : gmap string Image) !! p /\
    disk (final d2) !! p = d2 !! p.
Proof.
  intros d2. split; [reflexivity|]. split; [reflexivity|].
  apply (@runs_are_deterministic no_faults theme_before_figures ∅ d2); reflexivity.
Defined.

(** ** Every way a run can end *)

(** The world a raising call of [render] leaves, read off the run in [Hr]. *)
Ltac raised Hr :=
  injection Hr as <- <-; cbn;
  rewrite ?Nat.eqb_refl, ?on_axes_older; cbn;
  split; [eauto|]; split; [reflexivity|];
  split; [first [left; reflexivity | right; eexists; reflexivity]|];
  first [left; reflexivity | right; reflexivity].

Section Outcomes.
Context `{Env}.

(** When the theme or a frame raises, at most the theme was set; and the
    exception is the environment's unless a table has columns of unequal
    length. *)
Lemma frames_raise rd gd w e w' :
  frames rd gd w = Raise e w' ->
  (w' = w \/ w' = set_rc theme w) /\
  ((exists a w0, fault a w0 = Some e) \/
   same_length rd = false \/ same_length gd = false).
Proof.
  intros Hr. unfold frames in Hr. unfold_calls_in Hr.
  step Hr; [injection Hr as <- <-; eauto 8|].
  step Hr; [injection Hr as <- <-; eauto 8|].
  destruct (same_length rd); [|injection Hr as <- <-; eauto 8]. cbn in Hr.
  step Hr; [injection Hr as <- <-; eauto 8|].
  destruct (same_length gd); [discriminate|injection Hr as <- <-; eauto 8].
Qed.

(** When [render] raises although both columns exist, the exception is the
    environment's; the theme is as it was, at most one figure was opened,
    and [path] either is untouched or already holds the chart. *)
Lemma render_raise_env df x y ttl xl yl path w e w' fig :
  drawn df x y ttl xl yl = Some fig ->
  render df x y ttl xl yl path w = Raise e w' ->
  (exists a w0, fault a w0 = Some e) /\
  rc w' = rc w /\
  (figs w' = figs w \/ exists f, figs w' = (next_num (figs w), f) :: figs w) /\
  (disk w' = disk w \/ disk w' = <[path := png fig]> (disk w)).
Proof.
  unfold drawn. intros Hd Hr.
  destruct (getitem df x) as [xs|] eqn:Hx; [|discriminate].
  destruct (getitem df y) as [ys|] eqn:Hy; [|discriminate].
  injection Hd as <-.
  unfold render in Hr. unfold_calls_in Hr.
  step Hr; [raised Hr|].
  step Hr; [raised Hr|].
  rewrite Hx, Hy in Hr. cbn in Hr.
  do 7 (step Hr; [raised Hr|]).
  discriminate.
Qed.

(** The four ways a run ends: in the theme or the frames; in the first
    chart; in the second chart, the first being done; or by returning. *)
Lemma run_cases d :
  (exists e w', run d = Raise e w' /\
     (w' = fresh d \/ w' = set_rc theme (fresh d)) /\
     exists a w0, fault a w0 = Some e) \/
  (exists e w', run d = Raise e w' /\
     chart_random random_data (set_rc theme (fresh d)) = Raise e w') \/
  (exists e w', run d = Raise e w' /\
     chart_grid grid_data
       (rendered fig_random "benchmark_random.png" (set_rc theme (fresh d)))
     = Raise e w') \/
  run d = Ok tt (final d).
Proof.
  unfold run, main, script.
  destruct (frames random_data grid_data (fresh d)) as [dfs w0|e w0] eqn:Hf.
  - rewrite (bind_step _ _ _ _ _ Hf).
    apply frames_ok in Hf as [-> ->]. cbn [fst snd]. right.
    destruct (chart_random random_data _) as [[] w1|e w1] eqn:H1.
    + rewrite (bind_step _ _ _ _ _ H1). right.
      rewrite chart_random_render in H1.
      apply render_ok in H1 as (f1 & Hd1 & ->).
      rewrite drawn_random in Hd1. injection Hd1 as <-.
      destruct (chart_grid grid_data _) as [[] w2|e w2] eqn:H2.
      * right. rewrite chart_grid_render in H2.
        apply render_ok in H2 as (f2 & Hd2 & ->).
        rewrite drawn_grid in Hd2. injection Hd2 as <-. reflexivity.
      * left. eauto.
    + left. exists e, w1. split; [by apply bind_raise|reflexivity].
  - left. exists e, w0. split; [by apply bind_raise|].
    apply frames_raise in Hf as [Hw [Henv|[Hl|Hl]]];
      [eauto|discriminate Hl|discriminate Hl].
Qed.
End Outcomes.

(** ** What every run keeps *)

Section Kept.
Context `{Env}.

(** A run that returns has saved two 10 by 6 inch charts, each with its
    title, its axis labels, a dashed grid on major and minor ticks, and one
    line with round markers of size 8. *)
Theorem run_charts_are_labelled d w' :
  run d = Ok tt w' ->
  exists i1 i2 a1 a2 l1 l2,
    disk w' !! "benchmark_random.png" = Some i1 /\
    disk w' !! "benchmark_grid.png" = Some i2 /\
    figsize (canvas i1) = Some (10, 6) /\ figsize (canvas i2) = Some (10, 6) /\
    axes (canvas i1) = Some a1 /\ axes (canvas i2) = Some a2 /\
    title a1 = "Performance Scaling with Number of Segments (Random Data)" /\
    title a2 = "Performance Scaling with Number of Intersections (Grid Data)" /\
    xlabel a1 = "Number of Segments (n)" /\
    xlabel a2 = "Number of Intersections (k)" /\
    ylabel a1 = "Time per Operation (ns, log scale)" /\
    ylabel a2 = "Time per Operation (ns, log scale)" /\
    grid a1 = Some {| grid_visible := true; grid_which := "both"; grid_ls := "--" |} /\
    grid a2 = grid a1 /\
    lines a1 = [l1] /\ lines a2 = [l2] /\
    marker l1 = "o" /\ marker l2 = "o" /\
    markersize l1 = 8 /\ markersize l2 = 8.
Proof.
  intros ->%run_ok.
  exists (png fig_random), (png fig_grid). do 4 eexists.
  split; [cbn; rewrite lookup_insert_ne by discriminate; apply lookup_insert_eq|].
  split; [apply lookup_insert_eq|].
  repeat split; reflexivity.
Qed.

(** However a run ends, a figure is open only if the theme was set first. *)
Theorem theme_set_before_any_figure d :
  figs (world_of (run d)) <> [] ->
  rc (world_of (run d)) = Some theme.
Proof.
  destruct (run_cases d)
    as [(e & w' & -> & Hw & _)|[(e & w' & -> & H1)|[(e & w' & -> & H2)| ->]]];
    cbn [world_of]; intros Hfigs.
  - destruct Hw as [-> | ->]; contradiction.
  - rewrite chart_random_render in H1.
    by apply (render_raise_env _ _ _ _ _ _ _ _ _ _ _ drawn_random) in H1
      as (_ & -> & _).
  - rewrite chart_grid_render in H2.
    by apply (render_raise_env _ _ _ _ _ _ _ _ _ _ _ drawn_grid) in H2
      as (_ & -> & _).
  - reflexivity.
Qed.

(** However a run ends, a printed 'Saved' line tells the truth: the file
    it names holds the chart. *)
Theorem printed_means_saved d :
  ("Saved benchmark_random.png" ∈ stdout (world_of (run d)) ->
   disk (world_of (run d)) !! "benchmark_random.png" = Some (png fig_random)) /\
  ("Saved benchmark_grid.png" ∈ stdout (world_of (run d)) ->
   disk (world_of (run d)) !! "benchmark_grid.png" = Some (png fig_grid)).
Proof.
  destruct (run_cases d)
    as [(e & w' & -> & Hw & _)|[(e & w' & -> & H1)|[(e & w' & -> & H2)| ->]]];
    cbn [world_of].
  - destruct Hw as [-> | ->]; split; intros Hin; cbn in Hin;
      by apply not_elem_of_nil in Hin.
  - rewrite chart_random_render in H1. apply render_raise in H1 as [-> _].
    split; intros Hin; cbn in Hin; by apply not_elem_of_nil in Hin.
  - rewrite chart_grid_render in H2. apply render_raise in H2 as [-> Hd].
    split; intros Hin; cbn in Hin.
    + rewrite Hd by discriminate. apply lookup_insert_eq.
    + apply list_elem_of_singleton in Hin. discriminate.
  - split; intros _; cbn.
    + rewrite lookup_insert_ne by discriminate. apply lookup_insert_eq.
    + apply lookup_insert_eq.
Qed.

(** Both lines are on the output exactly when the run returned; a run
    that raises has printed nothing, or the first line alone. *)
Theorem both_lines_iff_returned d :
  (stdout (world_of (run d))
     = ["Saved benchmark_random.png"; "Saved benchmark_grid.png"]
   <-> run d = Ok tt (final d)) /\
  (forall e w', run d = Raise e w' ->
     stdout w' = [] \/ stdout w' = ["Saved benchmark_random.png"]).
Proof.
  destruct (run_cases d)
    as [(e & w' & Hr & Hw & _)|[(e & w' & Hr & H1)|[(e & w' & Hr & H2)|Hr]]];
    rewrite Hr; cbn [world_of].
  - destruct Hw as [-> | ->];
      (split; [split; discriminate|]); intros ? ? [= <- <-]; by left.
  - rewrite chart_random_render in H1. apply render_raise in H1 as [Hout _].
    split; [split; [rewrite Hout|]; discriminate|].
    intros ? ? [= <- <-]. left. by rewrite Hout.
  - rewrite chart_grid_render in H2. apply render_raise in H2 as [Hout _].
    split; [split; [rewrite Hout|]; discriminate|].
    intros ? ? [= <- <-]. right. by rewrite Hout.
  - split; [split; reflexivity|]. discriminate.
Qed.

(** However a run ends, no file but the two outputs was touched. *)
Theorem run_touches_only_outputs d p :
  p <> "benchmark_random.png" ->
  p <> "benchmark_grid.png" ->
  disk (world_of (run d)) !! p = d !! p.
Proof.
  intros Hr Hg.
  destruct (run_cases d)
    as [(e & w' & -> & Hw & _)|[(e & w' & -> & H1)|[(e & w' & -> & H2)| ->]]];
    cbn [world_of].
  - by destruct Hw as [-> | ->].
  - rewrite chart_random_render in H1. apply render_raise in H1 as [_ Hd].
    by rewrite Hd.
  - rewrite chart_grid_render in H2. apply render_raise in H2 as [_ Hd].
    rewrite Hd by done. cbn. by rewrite lookup_insert_ne by names_differ.
  - cbn. by rewrite !lookup_insert_ne by names_differ.
Qed.

(** The arguments the script passes are all valid (columns of one length,
    column names that exist, scale names that exist): when a run raises,
    the exception is one the environment gave to some call. *)
Theorem run_fails_only_by_environment d e w' :
  run d = Raise e w' ->
  exists a w0, fault a w0 = Some e.
Proof.
  intros Hr.
  destruct (run_cases d)
    as [(e1 & w1 & Hr1 & _ & Henv)|[(e1 & w1 & Hr1 & H1)
       |[(e1 & w1 & Hr1 & H2)|Hr1]]];
    rewrite Hr1 in Hr; [| | |discriminate]; injection Hr as <- <-.
  - exact Henv.
  - rewrite chart_random_render in H1.
    by apply (render_raise_env _ _ _ _ _ _ _ _ _ _ _ drawn_random) in H1
      as (Henv & _).
  - rewrite chart_grid_render in H2.
    by apply (render_raise_env _ _ _ _ _ _ _ _ _ _ _ drawn_grid) in H2
      as (Henv & _).
Qed.
End Kept.

(** ** Runs that stop early *)

Section Early.
Context `{Env}.

(** When the theme or a frame raises, the run stops there: no figure was
    opened, nothing was printed and the directory is as it was. *)
Theorem setup_failure_leaves_nothing d e w' :
  frames random_data grid_data (fresh d) = Raise e w' ->
  run d = Raise e w' /\
  figs w' = [] /\ stdout w' = [] /\ disk w' = d.
Proof.
  intros Hf. split.
  - unfold run, main, script. by apply bind_raise.
  - apply frames_raise in Hf as [[-> | ->] _]; repeat split; reflexivity.
Qed.

(** When the second chart raises, the run stops there with that exception,
    the first line alone having been printed. *)
Theorem second_chart_failure_stops_run d dfs w0 w1 e w2 :
  frames random_data grid_data (fresh d) = Ok dfs w0 ->
  chart_random dfs.1 w0 = Ok tt w1 ->
  chart_grid dfs.2 w1 = Raise e w2 ->
  run d = Raise e w2 /\
  stdout w2 = ["Saved benchmark_random.png"] /\
  "Saved benchmark_grid.png" ∉ stdout w2.
Proof.
  intros Hf H1 H2. split.
  - unfold run, main, script.
    rewrite (bind_step _ _ _ _ _ Hf), (bind_step _ _ _ _ _ H1). exact H2.
  - apply frames_ok in Hf as [-> ->]. cbn [fst snd] in *.
    rewrite chart_random_render in H1. rewrite chart_grid_render in H2.
    apply render_ok in H1 as (f1 & _ & ->).
    apply render_raise in H2 as [-> _]. cbn.
    split; [reflexivity|]. intros Hin.
    apply list_elem_of_singleton in Hin. discriminate.
Qed.
End Early.

(** ** More instances *)

Lemma run_charts_are_labelled_witness :
  @run no_faults ∅ = Ok tt (final ∅) /\
  exists i1 i2 a1 a2 l1 l2,
    disk (final ∅) !! "benchmark_random.png" = Some i1 /\
    disk (final ∅) !! "benchmark_grid.png" = Some i2 /\
    figsize (canvas i1) = Some (10, 6) /\ figsize (canvas i2) = Some (10, 6) /\
    axes (canvas i1) = Some a1 /\ axes (canvas i2) = Some a2 /\
    title a1 = "Performance Scaling with Number of Segments (Random Data)" /\
    title a2 = "Performance Scaling with Number of Intersections (Grid Data)" /\
    xlabel a1 = "Number of Segments (n)" /\
    xlabel a2 = "Number of Intersections (k)" /\
    ylabel a1 = "Time per Operation (ns, log scale)" /\
    ylabel a2 = "Time per Operation (ns, log scale)" /\
    grid a1 = Some {| grid_visible := true; grid_which := "both"; grid_ls := "--" |} /\
    grid a2 = grid a1 /\
    lines a1 = [l1] /\ lines a2 = [l2] /\
    marker l1 = "o" /\ marker l2 = "o" /\
    markersize l1 = 8 /\ markersize l2 = 8.
Proof.
  split; [reflexivity|].
  apply (@run_charts_are_labelled no_faults ∅ (final ∅)). reflexivity.
Defined.

Lemma theme_set_before_any_figure_witness :
  figs (world_of (@run read_only ∅)) <> [] /\
  rc (world_of (@run read_only ∅)) = Some theme.
Proof.
  split; [discriminate|].
  apply (@theme_set_before_any_figure read_only ∅). discriminate.
Defined.

Lemma run_touches_only_outputs_witness :
  let d : gmap string Image := {["notes.png" := png fig_grid]} in
  "notes.png" <> "benchmark_random.png" /\
  "notes.png" <> "benchmark_grid.png" /\
  disk (world_of (@run second_save_fails d)) !! "notes.png" = d !! "notes.png".
Proof.
  intros d. split; [discriminate|]. split; [discriminate|].
  apply (@run_touches_only_outputs second_save_fails d "notes.png");
    discriminate.
Defined.

Lemma first_chart_outlives_second_witness :
  let w0 := set_rc theme (fresh ∅) in
  let w1 := rendered fig_random "benchmark_random.png" w0 in
  @frames second_save_fails random_data grid_data (fresh ∅)
    = Ok (random_data, grid_data) w0 /\
  @chart_random second_save_fails random_data w0 = Ok tt w1 /\
  match @run second_save_fails ∅ with
  | Raise OSError _ => True
  | _ => False
  end /\
  disk (world_of (@run second_save_fails ∅)) !! "benchmark_random.png"
    = Some (png fig_random) /\
  "Saved benchmark_random.png" ∈ stdout (world_of (@run second_save_fails ∅)).
Proof.
  intros w0 w1. split; [reflexivity|]. split; [reflexivity|].
  split; [exact I|].
  apply (@first_chart_outlives_second second_save_fails ∅
           (random_data, grid_data) w0 w1); reflexivity.
Defined.

Lemma run_fails_only_by_environment_witness :
  @run read_only ∅ = Raise OSError (world_of (@run read_only ∅)) /\
  exists a w0, @fault read_only a w0 = Some OSError.
Proof.
  split; [reflexivity|].
  apply (@run_fails_only_by_environment read_only ∅ OSError
           (world_of (@run read_only ∅))). reflexivity.
Defined.

Lemma setup_failure_leaves_nothing_witness :
  @frames no_frames random_data grid_data (fresh ∅)
    = Raise ImportError (set_rc theme (fresh ∅)) /\
  @run no_frames ∅ = Raise ImportError (set_rc theme (fresh ∅)) /\
  figs (set_rc theme (fresh ∅)) = [] /\
  stdout (set_rc theme (fresh ∅)) = [] /\
  disk (set_rc theme (fresh ∅)) = ∅.
Proof.
  split; [reflexivity|].
  apply (@setup_failure_leaves_nothing no_frames ∅ ImportError
           (set_rc theme (fresh ∅))). reflexivity.
Defined.

Lemma second_chart_failure_stops_run_witness :
  let w0 := set_rc theme (fresh ∅) in
  let w1 := rendered fig_random "benchmark_random.png" w0 in
  let w2 := world_of (@chart_grid second_save_fails grid_data w1) in
  @frames second_save_fails random_data grid_data (fresh ∅)
    = Ok (random_data, grid_data) w0 /\
  @chart_random second_save_fails random_data w0 = Ok tt w1 /\
  @chart_grid second_save_fails grid_data w1 = Raise OSError w2 /\
  @run second_save_fails ∅ = Raise OSError w2 /\
  stdout w2 = ["Saved benchmark_random.png"] /\
  "Saved benchmark_grid.png" ∉ stdout w2.
Proof.
  intros w0 w1 w2. do 3 (split; [reflexivity|]).
  apply (@second_chart_failure_stops_run second_save_fails ∅
           (random_data, grid_data) w0 w1 OSError w2); reflexivity.
Defined.

Lemma both_lines_iff_returned_witness :
  let w0 := set_rc theme (fresh ∅) in
  let w1 := rendered fig_random "benchmark_random.png" w0 in
  let w2 := world_of (@chart_grid second_save_fails grid_data w1) in
  @run second_save_fails ∅ = Raise OSError w2 /\
  stdout w2 = ["Saved benchmark_random.png"] /\
  (stdout w2 = [] \/ stdout w2 = ["Saved benchmark_random.png"]).
Proof.
  intros w0 w1 w2.
  assert (Hf : @frames second_save_fails random_data grid_data (fresh ∅)
               = Ok (random_data, grid_data) w0) by reflexivity.
  assert (H1 : @chart_random second_save_fails random_data w0 = Ok tt w1)
    by reflexivity.
  assert (Hr : @run second_save_fails ∅ = Raise OSError w2).
  { unfold run, main, script.
    rewrite (bind_step _ _ _ _ _ Hf). cbn [fst snd].
    rewrite (bind_step _ _ _ _ _ H1). reflexivity. }
  split; [exact Hr|]. split; [reflexivity|].
  exact (proj2 (@both_lines_iff_returned second_save_fails ∅) OSError w2 Hr).
Defined.
